(** * Conversation flow engine of the stroke follow-up bot

    Shallow embedding of [conversation_engine/state_machine.py],
    [yaml_parser.py], [prompt_generator.py] and [conversation_flow.py].

    Conventions of the model:
    - Python [str] values are [String.string]; [str.lower] is modelled on
      ASCII letters, the only letters the claims use.
    - A Python [dict] whose insertion order is observable (the answers map,
      exported as is) is an association list updated in place.
    - Every read of [datetime.now()] is an explicit argument [now : Z]: the
      local wall clock as a count of seconds, so the hour is
      [(now / 3600) mod 24].
    - Mutating methods return the updated object; methods with a result
      return the pair (result, updated object). *)

From Stdlib Require Import String Ascii List ZArith Bool Lia.
Import ListNotations.
Open Scope string_scope.
Open Scope Z_scope.

(** ** String helpers *)

Definition nl : string := String (ascii_of_nat 10) EmptyString.
Definition dq : string := String (ascii_of_nat 34) EmptyString.

(** [str.lower] on ASCII letters. *)
Definition lower_ascii (c : ascii) : ascii :=
  let n := nat_of_ascii c in
  if (Nat.leb 65 n && Nat.leb n 90)%bool then ascii_of_nat (n + 32) else c.

Fixpoint lower (s : string) : string :=
  match s with
  | EmptyString => EmptyString
  | String c s' => String (lower_ascii c) (lower s')
  end.

(** Python's [k in s] on strings: [k] is a substring of [s]. *)
Fixpoint contains (k s : string) : bool :=
  (prefix k s ||
   match s with
   | EmptyString => false
   | String _ s' => contains k s'
   end)%bool.

(** ['sep'.join(xs)]. *)
Fixpoint join (sep : string) (xs : list string) : string :=
  match xs with
  | [] => ""
  | [x] => x
  | x :: xs' => x ++ sep ++ join sep xs'
  end.

(** [s.replace(old, new)] for a non-empty [old]: every non-overlapping
    occurrence, scanning left to right. Structural on [s]; [fuel] is the
    length of [s]. *)
Fixpoint replace_go (fuel : nat) (old new s : string) : string :=
  match fuel with
  | O => s
  | S fuel' =>
      match s with
      | EmptyString => EmptyString
      | String c s' =>
          if prefix old s
          then new ++ replace_go fuel' old new (substring (String.length old)
                                                   (String.length s) s)
          else String c (replace_go fuel' old new s')
      end
  end.

Definition replace (old new s : string) : string :=
  replace_go (String.length s) old new s.

(** ** Ordered dictionaries with string keys *)

Definition Dict := list (string * string).

(** [d[k] = v]: an existing key keeps its position, a new key goes last. *)
Fixpoint dict_set (k v : string) (d : Dict) : Dict :=
  match d with
  | [] => [(k, v)]
  | (k', v') :: d' =>
      if String.eqb k k' then (k', v) :: d' else (k', v') :: dict_set k v d'
  end.

(** [d.get(k)]. *)
Fixpoint dict_get (k : string) (d : Dict) : option string :=
  match d with
  | [] => None
  | (k', v') :: d' => if String.eqb k k' then Some v' else dict_get k d'
  end.

Definition dict_mem (k : string) (d : Dict) : bool :=
  match dict_get k d with Some _ => true | None => false end.

(** ** state_machine.py *)

Module StateMachine.

Inductive ConversationState :=
| IDLE | GREETING | CONSENT | KNOWLEDGE_CHECK | GENERAL_WELLBEING
| MEDICATIONS | FOLLOWUP_CARE | LIFESTYLE | DAILY_ACTIVITIES | RESOURCES
| WRAPUP | EMERGENCY_EXIT | COMPLETED | ERROR.

Definition state_eq_dec (a b : ConversationState) : {a = b} + {a <> b}.
Proof. decide equality. Defined.

Definition state_eqb (a b : ConversationState) : bool :=
  if state_eq_dec a b then true else false.

(** [ConversationState.value]. *)
Definition value (s : ConversationState) : string :=
  match s with
  | IDLE => "idle"
  | GREETING => "greeting"
  | CONSENT => "consent"
  | KNOWLEDGE_CHECK => "knowledge_check"
  | GENERAL_WELLBEING => "general_wellbeing"
  | MEDICATIONS => "medications"
  | FOLLOWUP_CARE => "followup_care"
  | LIFESTYLE => "lifestyle"
  | DAILY_ACTIVITIES => "daily_activities"
  | RESOURCES => "resources"
  | WRAPUP => "wrapup"
  | EMERGENCY_EXIT => "emergency_exit"
  | COMPLETED => "completed"
  | ERROR => "error"
  end.

(** The dataclass [ConversationContext]; [__post_init__] always sets
    [start_time] and [responses], so they are not optional here. *)
Record ConversationContext := mkContext {
  patient_name : string;
  honorific : string;
  time_of_day : string;
  organization : string;
  site : string;
  start_time : Z;
  current_question_index : Z;
  responses : Dict;
  emergency_detected : bool
}.

(** [ConversationContext()] read at clock [now]. *)
Definition new_context (now : Z) : ConversationContext :=
  mkContext "" "" "" "" "" now 0 [] false.

Definition set_responses (d : Dict) (c : ConversationContext) :=
  mkContext (patient_name c) (honorific c) (time_of_day c) (organization c)
    (site c) (start_time c) (current_question_index c) d
    (emergency_detected c).

Definition set_emergency_detected (b : bool) (c : ConversationContext) :=
  mkContext (patient_name c) (honorific c) (time_of_day c) (organization c)
    (site c) (start_time c) (current_question_index c) (responses c) b.

Record StateTransition := mkTransition {
  from_state : ConversationState;
  to_state : ConversationState;
  condition : option (ConversationContext -> bool);
  action : option (ConversationContext -> ConversationContext)
}.

Definition plain (a b : ConversationState) : StateTransition :=
  mkTransition a b None None.

Definition guarded (a b : ConversationState)
  (g : ConversationContext -> bool) : StateTransition :=
  mkTransition a b (Some g) None.

(** [ctx.responses.get('consent') == v]. *)
Definition consent_is (v : string) (ctx : ConversationContext) : bool :=
  match dict_get "consent" (responses ctx) with
  | Some a => String.eqb a v
  | None => false
  end.

(** [_create_transitions], in the declared order. [self.transitions] is
    set once in [__init__] and never reassigned, so the machine reads this
    constant. *)
Definition create_transitions : list StateTransition := [
  plain IDLE GREETING;
  plain GREETING CONSENT;
  guarded CONSENT KNOWLEDGE_CHECK (consent_is "yes");
  guarded CONSENT EMERGENCY_EXIT (consent_is "no");
  plain KNOWLEDGE_CHECK GENERAL_WELLBEING;
  plain GENERAL_WELLBEING MEDICATIONS;
  plain MEDICATIONS FOLLOWUP_CARE;
  plain FOLLOWUP_CARE LIFESTYLE;
  plain LIFESTYLE DAILY_ACTIVITIES;
  plain DAILY_ACTIVITIES RESOURCES;
  plain RESOURCES WRAPUP;
  plain WRAPUP COMPLETED;
  guarded GREETING EMERGENCY_EXIT emergency_detected;
  guarded CONSENT EMERGENCY_EXIT emergency_detected;
  guarded KNOWLEDGE_CHECK EMERGENCY_EXIT emergency_detected;
  guarded GENERAL_WELLBEING EMERGENCY_EXIT emergency_detected;
  guarded MEDICATIONS EMERGENCY_EXIT emergency_detected;
  guarded FOLLOWUP_CARE EMERGENCY_EXIT emergency_detected;
  guarded LIFESTYLE EMERGENCY_EXIT emergency_detected;
  guarded DAILY_ACTIVITIES EMERGENCY_EXIT emergency_detected;
  guarded RESOURCES EMERGENCY_EXIT emergency_detected;
  plain ERROR IDLE
].

Record ConversationStateMachine := mkSM {
  current_state : ConversationState;
  context : ConversationContext;
  state_history : list ConversationState
}.

(** [ConversationStateMachine()]. *)
Definition init (now : Z) : ConversationStateMachine :=
  mkSM IDLE (new_context now) [].

(** [hour = datetime.now().hour]. *)
Definition hour_of (now : Z) : Z := (now / 3600) mod 24.

Definition time_of_day_of_hour (hour : Z) : string :=
  if (5 <=? hour) && (hour <? 12) then "morning"
  else if (12 <=? hour) && (hour <? 17) then "afternoon"
  else "evening".

(** [_get_time_of_day]. *)
Definition get_time_of_day (now : Z) : string :=
  time_of_day_of_hour (hour_of now).

Definition start_conversation (patient_name honorific organization site : string)
  (now : Z) (sm : ConversationStateMachine) : ConversationStateMachine :=
  mkSM GREETING
    (mkContext patient_name honorific (get_time_of_day now) organization site
       now 0 [] false)
    [GREETING].

Definition emergency_keywords : list string :=
  ["emergency"; "911"; "urgent"; "help"; "pain"; "chest pain";
   "can't breathe"; "can't speak"; "numb"; "paralyzed"; "stroke"].

(** [_detect_emergency]. *)
Definition detect_emergency (response : string) : bool :=
  let response_lower := lower response in
  existsb (fun keyword => contains keyword response_lower) emergency_keywords.

Definition fires (t : StateTransition) (sm : ConversationStateMachine) : bool :=
  if state_eqb (from_state t) (current_state sm) then
    match condition t with
    | None => true
    | Some g => g (context sm)
    end
  else false.

Fixpoint try_transition_in (ts : list StateTransition)
  (sm : ConversationStateMachine) : bool * ConversationStateMachine :=
  match ts with
  | [] => (false, sm)
  | t :: ts' =>
      if fires t sm then
        let ctx := match action t with
                   | Some a => a (context sm)
                   | None => context sm
                   end in
        (true, mkSM (to_state t) ctx (state_history sm ++ [to_state t]))
      else try_transition_in ts' sm
  end.

(** [_try_transition]: the first rule that fires is applied. *)
Definition try_transition (sm : ConversationStateMachine)
  : bool * ConversationStateMachine :=
  try_transition_in create_transitions sm.

(** [process_response]. The [except] branch is not modelled: storing into
    the dict, lowering a [str] and the rule guards raise nothing. *)
Definition process_response (question_key response : string)
  (sm : ConversationStateMachine) : bool * ConversationStateMachine :=
  let ctx := context sm in
  let ctx1 := set_responses (dict_set question_key response (responses ctx)) ctx in
  let ctx2 := set_emergency_detected
                (if detect_emergency response then true
                 else emergency_detected ctx1) ctx1 in
  try_transition (mkSM (current_state sm) ctx2 (state_history sm)).

(** The context [process_response] hands to [_try_transition]: the answer
    stored, the flag raised on a keyword, every other field as before. *)
Definition recorded (k r : string) (c : ConversationContext) : ConversationContext :=
  mkContext (patient_name c) (honorific c) (time_of_day c) (organization c)
    (site c) (start_time c) (current_question_index c)
    (dict_set k r (responses c))
    (if detect_emergency r then true else emergency_detected c).

Definition get_current_state := current_state.
Definition get_context := context.

Definition is_conversation_active (sm : ConversationStateMachine) : bool :=
  negb (existsb (state_eqb (current_state sm)) [COMPLETED; EMERGENCY_EXIT; ERROR]).

Definition is_emergency_exit (sm : ConversationStateMachine) : bool :=
  state_eqb (current_state sm) EMERGENCY_EXIT.

Definition is_completed (sm : ConversationStateMachine) : bool :=
  state_eqb (current_state sm) COMPLETED.

Record Summary := mkSummary {
  s_patient_name : string;
  s_start_time : option Z;
  s_duration_seconds : option Z;
  s_final_state : string;
  s_total_responses : nat;
  s_emergency_detected : bool;
  s_state_history : list string;
  s_responses : Dict
}.

Definition get_conversation_summary (now : Z) (sm : ConversationStateMachine)
  : Summary :=
  let c := context sm in
  mkSummary (patient_name c) (Some (start_time c)) (Some (now - start_time c))
    (value (current_state sm)) (length (responses c)) (emergency_detected c)
    (map value (state_history sm)) (responses c).

Definition reset (now : Z) (sm : ConversationStateMachine) : ConversationStateMachine :=
  mkSM IDLE (new_context now) [].

End StateMachine.

(** ** yaml_parser.py *)

Module YamlParser.

Record Question := mkQuestion {
  key : string;
  type : string;
  prompt : string;
  on_deny : option string;
  section : option string
}.

Record ConversationMeta := mkMeta {
  m_organization : string;
  service_name : string;
  m_site : string;
  version : string;
  description : string
}.

Record ConversationTemplate := mkTemplate {
  template : string;
  variables : list string
}.

(** An entry of the document's [flow] list: a dict with a [section] key, a
    dict with a [key] key (its optional [type], [prompt], [on_deny]), or any
    other item, which the parser skips. *)
Inductive FlowItem :=
| SectionItem (name : string)
| QuestionItem (k : string) (ty : option string) (pr : option string)
    (deny : option string)
| OtherItem.

(** The document after [yaml.safe_load]. A top-level key that is absent is
    [None]; a missing field inside [meta] or [greeting] is already the
    parser's default ([''] or [[]]); [wrapup] is present or not, and its
    [message] is present or not. *)
Record YamlDoc := mkDoc {
  doc_meta : option ConversationMeta;
  doc_greeting : option ConversationTemplate;
  doc_flow : option (list FlowItem);
  doc_wrapup : option (option string);
  doc_emergency_disclaimer : option string;
  doc_stroke_warning_signs : option (list string)
}.

Definition get_meta (d : YamlDoc) : ConversationMeta :=
  match doc_meta d with Some m => m | None => mkMeta "" "" "" "" "" end.

Definition get_greeting_template (d : YamlDoc) : ConversationTemplate :=
  match doc_greeting d with Some g => g | None => mkTemplate "" [] end.

Definition flow_data (d : YamlDoc) : list FlowItem :=
  match doc_flow d with Some f => f | None => [] end.

Fixpoint questions_from (current_section : option string) (items : list FlowItem)
  : list Question :=
  match items with
  | [] => []
  | SectionItem s :: items' => questions_from (Some s) items'
  | QuestionItem k ty pr deny :: items' =>
      mkQuestion k (match ty with Some t => t | None => "free" end)
        (match pr with Some p => p | None => "" end) deny current_section
      :: questions_from current_section items'
  | OtherItem :: items' => questions_from current_section items'
  end.

Definition get_questions (d : YamlDoc) : list Question :=
  questions_from None (flow_data d).

Definition get_sections (d : YamlDoc) : list string :=
  flat_map (fun it => match it with SectionItem s => [s] | _ => [] end)
    (flow_data d).

Definition get_wrapup_message (d : YamlDoc) : string :=
  match doc_wrapup d with Some (Some m) => m | _ => "" end.

Definition get_emergency_disclaimer (d : YamlDoc) : string :=
  match doc_emergency_disclaimer d with Some s => s | None => "" end.

Definition get_stroke_warning_signs (d : YamlDoc) : list string :=
  match doc_stroke_warning_signs d with Some l => l | None => [] end.

Definition get_question_by_key (d : YamlDoc) (k : string) : option Question :=
  find (fun q => String.eqb (key q) k) (get_questions d).

Definition get_consent_question (d : YamlDoc) : option Question :=
  get_question_by_key d "consent".

Definition get_questions_by_section (d : YamlDoc) (name : string) : list Question :=
  filter (fun q => match section q with
                   | Some s => String.eqb s name
                   | None => false
                   end) (get_questions d).

Definition validate_conversation_structure (d : YamlDoc) : list string :=
  let present := [("meta", match doc_meta d with Some _ => true | None => false end);
                  ("greeting", match doc_greeting d with Some _ => true | None => false end);
                  ("flow", match doc_flow d with Some _ => true | None => false end);
                  ("wrapup", match doc_wrapup d with Some _ => true | None => false end)] in
  let missing := flat_map (fun '((s, b) : string * bool) =>
                   if b then [] else ["Missing required section: " ++ s]) present in
  let consent := match get_consent_question d with
                 | Some _ => []
                 | None => ["Missing consent question"]
                 end in
  let empty := flat_map (fun s => match get_questions_by_section d s with
                                  | [] => ["Section '" ++ s ++ "' has no questions"]
                                  | _ => []
                                  end) (get_sections d) in
  app missing (app consent empty).

End YamlParser.

(** ** prompt_generator.py *)

Module PromptGenerator.
Import StateMachine YamlParser.

(** [str.format] with keyword arguments only. A replacement field is a plain
    name; [{{] and [}}] are literal braces; an unknown or empty name, a lone
    brace or an unclosed field raises, which is [None]. Format specifications
    and conversions are not modelled. *)
Inductive FmtMode := Lit | Open | Field (name : string) | Close.

Fixpoint format_go (kw : string -> option string) (m : FmtMode) (s : string)
  : option string :=
  match s with
  | EmptyString => match m with Lit => Some "" | _ => None end
  | String c s' =>
      match m with
      | Lit =>
          if Ascii.eqb c "{"%char then format_go kw Open s'
          else if Ascii.eqb c "}"%char then format_go kw Close s'
          else option_map (String c) (format_go kw Lit s')
      | Open =>
          if Ascii.eqb c "{"%char then option_map (String c) (format_go kw Lit s')
          else if Ascii.eqb c "}"%char then None
          else format_go kw (Field (String c EmptyString)) s'
      | Field name =>
          if Ascii.eqb c "}"%char then
            match kw name with
            | Some v => option_map (append v) (format_go kw Lit s')
            | None => None
            end
          else format_go kw (Field (name ++ String c EmptyString)) s'
      | Close =>
          if Ascii.eqb c "}"%char then option_map (String c) (format_go kw Lit s')
          else None
      end
  end.

Definition format (s : string) (kw : list (string * string)) : option string :=
  format_go (fun n => dict_get n kw) Lit s.

Definition generate_system_prompt (d : YamlDoc) : string :=
  "You are an AI stroke navigator calling from " ++ m_organization (get_meta d) ++ "." ++ nl
  ++ "You are conducting a post-discharge stroke care follow-up assessment for a patient who recently had an ischemic stroke." ++ nl
  ++ nl
  ++ "IMPORTANT GUIDELINES:" ++ nl
  ++ "1. Be empathetic, professional, and supportive" ++ nl
  ++ "2. Use clear, simple language appropriate for patients" ++ nl
  ++ "3. Listen actively and ask follow-up questions when appropriate" ++ nl
  ++ "4. If the patient mentions emergency symptoms, immediately direct them to call 911" ++ nl
  ++ "5. Do not provide medical advice - only gather information for the care team" ++ nl
  ++ "6. Keep responses concise but warm" ++ nl
  ++ "7. Use the patient's name and appropriate honorific" ++ nl
  ++ "8. Maintain a conversational, caring tone" ++ nl
  ++ nl
  ++ "EMERGENCY KEYWORDS to watch for:" ++ nl
  ++ "- " ++ dq ++ "emergency" ++ dq ++ ", " ++ dq ++ "911" ++ dq ++ ", "
  ++ dq ++ "urgent" ++ dq ++ ", " ++ dq ++ "help" ++ dq ++ nl
  ++ "- " ++ dq ++ "chest pain" ++ dq ++ ", " ++ dq ++ "can't breathe" ++ dq ++ ", "
  ++ dq ++ "can't speak" ++ dq ++ nl
  ++ "- " ++ dq ++ "numb" ++ dq ++ ", " ++ dq ++ "paralyzed" ++ dq ++ ", "
  ++ dq ++ "stroke symptoms" ++ dq ++ nl
  ++ nl
  ++ "If you detect any emergency keywords, immediately respond with: " ++ dq
  ++ "If you are experiencing a medical emergency, please hang up and call 911 immediately." ++ dq ++ nl
  ++ nl
  ++ "CONVERSATION STRUCTURE:" ++ nl
  ++ "- Start with greeting and consent" ++ nl
  ++ "- Ask about their understanding of ischemic stroke" ++ nl
  ++ "- Cover: general well-being, medications, follow-up care, lifestyle, daily activities, resources" ++ nl
  ++ "- End with wrap-up and emergency instructions" ++ nl
  ++ nl
  ++ "Remember: You cannot answer questions during this call, but you will record any requests for the care team.".

(** The greeting fills the template with the context's time of day,
    honorific and name, and the document's organization and site. *)
Definition generate_greeting_prompt (d : YamlDoc) (ctx : ConversationContext)
  : option string :=
  format (template (get_greeting_template d))
    [("timeofday", time_of_day ctx); ("honorific", honorific ctx);
     ("patient_name", patient_name ctx);
     ("organization", m_organization (get_meta d)); ("site", m_site (get_meta d))].

Definition get_relevant_context (q : Question) (ctx : ConversationContext) : string :=
  let context_parts :=
    if (match section q with Some s => String.eqb s "medications" | None => false end
        && dict_mem "meds" (responses ctx))%bool
    then ["Based on your previous responses about medications..."]
    else if (match section q with Some s => String.eqb s "followup_care" | None => false end
             && dict_mem "fup" (responses ctx))%bool
    then ["Regarding your follow-up care..."]
    else [] in
  join " " context_parts.

Definition generate_question_prompt (q : Question) (ctx : ConversationContext) : string :=
  let base_prompt := prompt q in
  let context_info := get_relevant_context q ctx in
  if String.eqb context_info "" then base_prompt
  else base_prompt ++ nl ++ nl ++ context_info.

Definition generate_wrapup_prompt (d : YamlDoc) (ctx : ConversationContext) : string :=
  let wrapup := get_wrapup_message d in
  if String.eqb (patient_name ctx) "" then wrapup
  else replace "Thank you" ("Thank you, " ++ patient_name ctx) wrapup.

Definition generate_emergency_prompt (d : YamlDoc) : string :=
  get_emergency_disclaimer d ++ nl ++ nl ++ "Stroke warning signs to watch for:" ++ nl
  ++ join nl (map (fun sign => "- " ++ sign) (get_stroke_warning_signs d)).

(** The [state_to_key] table of [get_question_by_state]. *)
Definition state_to_key (s : ConversationState) : option string :=
  match s with
  | CONSENT => Some "consent"
  | KNOWLEDGE_CHECK => Some "know_ischemic"
  | GENERAL_WELLBEING => Some "general_feeling"
  | MEDICATIONS => Some "meds_pickup"
  | FOLLOWUP_CARE => Some "fup_scheduled"
  | LIFESTYLE => Some "lifestyle_adherence"
  | DAILY_ACTIVITIES => Some "adl_support"
  | RESOURCES => Some "who_to_call"
  | _ => None
  end.

Definition get_question_by_state (d : YamlDoc) (s : ConversationState) : option Question :=
  match state_to_key s with
  | Some k => get_question_by_key d k
  | None => None
  end.

(** [_detect_emergency_keywords]: the prompt generator's own copy of the
    keyword list and scan. *)
Definition detect_emergency_keywords (response : string) : bool :=
  let emergency_keywords :=
    ["emergency"; "911"; "urgent"; "help"; "pain"; "chest pain";
     "can't breathe"; "can't speak"; "numb"; "paralyzed"; "stroke"] in
  let response_lower := lower response in
  existsb (fun keyword => contains keyword response_lower) emergency_keywords.

Definition positive_reply : string :=
  "That's wonderful to hear. I'm glad you're doing well.".
Definition negative_reply : string :=
  "I understand this has been challenging for you. Can you tell me more about what's been difficult?".
Definition medication_reply : string :=
  "I'd like to understand more about your medication experience. Can you share more details?".
Definition neutral_reply : string :=
  "Thank you for sharing that with me. That's helpful information for your care team.".

(** [_generate_empathetic_followup]: the first matching bucket wins. *)
Definition generate_empathetic_followup (q : Question) (response : string) : string :=
  let response_lower := lower response in
  if existsb (fun w => contains w response_lower)
       ["good"; "better"; "improving"; "fine"; "okay"] then positive_reply
  else if existsb (fun w => contains w response_lower)
       ["worse"; "bad"; "difficult"; "struggling"; "hard"] then negative_reply
  else if (contains "medication" response_lower || contains "medicine" response_lower)%bool
  then medication_reply
  else neutral_reply.

Definition consent_thanks : string :=
  "Thank you for your consent. Let's begin with a few questions about your recovery.".

(** [generate_followup_prompt]. *)
Definition generate_followup_prompt (d : YamlDoc) (q : Question) (response : string)
  (ctx : ConversationContext) : string :=
  if detect_emergency_keywords response then get_emergency_disclaimer d
  else if String.eqb (type q) "confirm" then
    if (contains "yes" (lower response) || contains "sure" (lower response)
        || contains "okay" (lower response))%bool
    then consent_thanks
    else match on_deny q with
         | Some deny => if String.eqb deny "" then "I understand. We won't proceed with the call."
                        else deny
         | None => "I understand. We won't proceed with the call."
         end
  else if String.eqb (type q) "free" then generate_empathetic_followup q response
  else "Thank you for sharing that information. Let me ask you about...".

End PromptGenerator.

(** ** conversation_flow.py *)

Module ConversationFlow.
Import StateMachine YamlParser PromptGenerator.

(** The external text generator [llm_callback(system_prompt=...,
    user_prompt=..., context=...)]; [None] is a call that raises. *)
Definition LLMCallback := string -> string -> ConversationContext -> option string.

(** An entry of [conversation_log]; [data] holds the event's string fields. *)
Record Event := mkEvent {
  ev_timestamp : Z;
  ev_type : string;
  ev_data : Dict
}.

Record Flow := mkFlow {
  yaml_parser : YamlDoc;
  state_machine : ConversationStateMachine;
  llm_callback : option LLMCallback;
  conversation_log : list Event
}.

Definition set_state_machine (sm : ConversationStateMachine) (f : Flow) : Flow :=
  mkFlow (yaml_parser f) sm (llm_callback f) (conversation_log f).

(** [_log_conversation_event]. *)
Definition log_conversation_event (now : Z) (event_type : string) (data : Dict)
  (f : Flow) : Flow :=
  mkFlow (yaml_parser f) (state_machine f) (llm_callback f)
    (conversation_log f ++ [mkEvent now event_type data])%list.

(** [ConversationFlow(yaml_file_path, llm_callback)], the file already
    parsed. *)
Definition new_flow (d : YamlDoc) (cb : option LLMCallback) (now : Z) : Flow :=
  mkFlow d (init now) cb [].

Definition technical_difficulties : string :=
  "I apologize, but I'm experiencing technical difficulties. Please try again later.".

(** [start_conversation]: a greeting template that [str.format] rejects
    lands in the [except] branch, which only sets the state to ERROR. *)
Definition start_conversation (patient_name honorific organization site : string)
  (now : Z) (f : Flow) : string * Flow :=
  let meta := get_meta (yaml_parser f) in
  let org := if String.eqb organization "" then m_organization meta else organization in
  let st := if String.eqb site "" then m_site meta else site in
  let sm := StateMachine.start_conversation patient_name honorific org st now
              (state_machine f) in
  match generate_greeting_prompt (yaml_parser f) (get_context sm) with
  | Some greeting =>
      (greeting,
       log_conversation_event now "conversation_started"
         [("patient_name", patient_name); ("greeting", greeting)]
         (set_state_machine sm f))
  | None =>
      (technical_difficulties,
       set_state_machine (mkSM ERROR (context sm) (state_history sm)) f)
  end.

(** [_generate_state_response]. *)
Definition generate_state_response (f : Flow) : string :=
  let d := yaml_parser f in
  let sm := state_machine f in
  let ctx := get_context sm in
  match get_current_state sm with
  | EMERGENCY_EXIT => generate_emergency_prompt d
  | WRAPUP => generate_wrapup_prompt d ctx
  | COMPLETED => "Thank you for completing the assessment. Have a great day!"
  | ERROR => "I apologize for the technical difficulty. Please try again later."
  | s =>
      match get_question_by_state d s with
      | Some q =>
          let question_prompt := generate_question_prompt q ctx in
          match llm_callback f with
          | Some cb =>
              match cb (generate_system_prompt d) question_prompt ctx with
              | Some llm_response => llm_response
              | None => question_prompt
              end
          | None => question_prompt
          end
      | None => "Let me ask you about your recovery..."
      end
  end.

Definition not_sure : string :=
  "I'm not sure how to respond to that. Let me continue with our assessment.".

(** [_handle_special_state]. *)
Definition handle_special_state (s : ConversationState) (response : string)
  (f : Flow) : string * Flow :=
  match s with
  | GREETING =>
      let f' := set_state_machine (snd (try_transition (state_machine f))) f in
      match get_consent_question (yaml_parser f') with
      | Some q => (prompt q, f')
      | None => (not_sure, f')
      end
  | IDLE => ("Let me start by greeting you...", f)
  | _ => (not_sure, f)
  end.

Definition didnt_catch : string :=
  "I'm sorry, I didn't quite catch that. Could you please repeat your response?".

(** [process_patient_response]. Its [except] branch is not modelled:
    nothing in the body raises (the generator's failure is caught inside
    [_generate_state_response]). *)
Definition process_patient_response (response : string) (now : Z) (f : Flow)
  : string * Flow :=
  let current_state := get_current_state (state_machine f) in
  let f1 := log_conversation_event now "patient_response"
              [("state", value current_state); ("response", response)] f in
  match get_question_by_state (yaml_parser f1) current_state with
  | Some current_question =>
      let question_key := key current_question in
      let '(success, sm) := process_response question_key response (state_machine f1) in
      let f2 := set_state_machine sm f1 in
      if negb success then (didnt_catch, f2)
      else (generate_state_response f2, f2)
  | None => handle_special_state current_state response f1
  end.

Record Status := mkStatus {
  st_current_state : string;
  st_is_active : bool;
  st_is_emergency : bool;
  st_is_completed : bool;
  st_patient_name : string;
  st_responses_count : nat;
  st_conversation_duration : option Z
}.

(** [_get_conversation_duration]. *)
Definition get_conversation_duration (now : Z) (f : Flow) : option Z :=
  Some (now - start_time (get_context (state_machine f))).

Definition get_conversation_status (now : Z) (f : Flow) : Status :=
  let sm := state_machine f in
  let ctx := get_context sm in
  mkStatus (value (get_current_state sm)) (is_conversation_active sm)
    (is_emergency_exit sm) (is_completed sm) (patient_name ctx)
    (length (responses ctx)) (get_conversation_duration now f).

Record FlowSummary := mkFlowSummary {
  fs_summary : Summary;
  fs_conversation_log : list Event;
  fs_validation_issues : list string
}.

Definition get_conversation_summary (now : Z) (f : Flow) : FlowSummary :=
  mkFlowSummary (StateMachine.get_conversation_summary now (state_machine f))
    (conversation_log f) (validate_conversation_structure (yaml_parser f)).

Definition reset_conversation (now : Z) (f : Flow) : Flow :=
  mkFlow (yaml_parser f) (reset now (state_machine f)) (llm_callback f) [].

(** [validate_conversation_data]. *)
Definition validate_conversation_data (f : Flow) : list string :=
  let ctx := get_context (state_machine f) in
  let not_started := if String.eqb (patient_name ctx) ""
                     then ["Conversation has not been started"] else [] in
  let missing := flat_map (fun question_key =>
                   if dict_mem question_key (responses ctx) then []
                   else ["Missing required response: " ++ question_key]) ["consent"] in
  let emergency := if is_emergency_exit (state_machine f)
                   then ["Conversation ended due to emergency detection"] else [] in
  app not_started (app missing emergency).

(** The caller-facing operations, each at the clock reading it sees. *)
Inductive FlowOp :=
| Begin (patient_name honorific organization site : string)
| Submit (message : string)
| GetStatus
| ExportSummary
| Reset.

Definition step (op : FlowOp) (now : Z) (f : Flow) : Flow :=
  match op with
  | Begin n h o s => snd (start_conversation n h o s now f)
  | Submit m => snd (process_patient_response m now f)
  | GetStatus => f
  | ExportSummary => f
  | Reset => reset_conversation now f
  end.

Fixpoint run (ops : list (FlowOp * Z)) (f : Flow) : Flow :=
  match ops with
  | [] => f
  | (op, now) :: ops' => run ops' (step op now f)
  end.

End ConversationFlow.

(** ** A dialogue document with the question keys the engine binds *)

Module Sample.
Import StateMachine YamlParser.

Definition sample_doc : YamlDoc :=
  mkDoc
    (Some (mkMeta "Org" "Stroke Navigator" "Site" "1.0" "Post-discharge follow-up"))
    (Some (mkTemplate
             "Good {timeofday}, {honorific} {patient_name}. This is the stroke navigator from {organization} at {site}."
             ["timeofday"; "honorific"; "patient_name"; "organization"; "site"]))
    (Some [SectionItem "intro";
           QuestionItem "consent" (Some "confirm") (Some "May we continue with the call?")
             (Some "I understand. We won't proceed with the call.");
           SectionItem "knowledge";
           QuestionItem "know_ischemic" None (Some "What do you know about ischemic stroke?") None;
           SectionItem "general_wellbeing";
           QuestionItem "general_feeling" None (Some "How have you been feeling?") None;
           SectionItem "medications";
           QuestionItem "meds_pickup" None (Some "Did you pick up your medications?") None;
           SectionItem "followup_care";
           QuestionItem "fup_scheduled" None (Some "Is your follow-up visit scheduled?") None;
           SectionItem "lifestyle";
           QuestionItem "lifestyle_adherence" None (Some "How is the diet and exercise going?") None;
           SectionItem "daily_activities";
           QuestionItem "adl_support" None (Some "Do you need help with daily activities?") None;
           SectionItem "resources";
           QuestionItem "who_to_call" None (Some "Do you know whom to call?") None])
    (Some (Some "Thank you for your time."))
    (Some "If you are experiencing a medical emergency, please hang up and call 911 immediately.")
    (Some ["Face drooping"; "Arm weakness"; "Speech difficulty"]).

(** The session of the spec's scenario, one flow per turn. *)
Definition jane_0 : ConversationFlow.Flow :=
  ConversationFlow.new_flow sample_doc None 36000.
Definition jane_begin := ConversationFlow.start_conversation "Jane" "Ms." "Org" "Site" 36000 jane_0.
Definition jane_hello := ConversationFlow.process_patient_response "hello" 36001 (snd jane_begin).
Definition jane_yes := ConversationFlow.process_patient_response "yes" 36002 (snd jane_hello).
Definition jane_know :=
  ConversationFlow.process_patient_response "I understand strokes" 36003 (snd jane_yes).
Definition jane_pain :=
  ConversationFlow.process_patient_response "I have chest pain" 36004 (snd jane_know).

(** The same document with a greeting field [str.format] cannot fill: the
    start of a session lands in the Error state. *)
Definition broken_doc : YamlDoc :=
  mkDoc (doc_meta sample_doc)
    (Some (mkTemplate "Good {timeofday}, {name}." ["timeofday"; "name"]))
    (doc_flow sample_doc) (doc_wrapup sample_doc)
    (doc_emergency_disclaimer sample_doc) (doc_stroke_warning_signs sample_doc).

Definition jane_broken_begin :=
  ConversationFlow.start_conversation "Jane" "Ms." "Org" "Site" 36000
    (ConversationFlow.new_flow broken_doc None 36000).

(** The document with a greeting without replacement fields and a wrap-up
    message without "Thank you". *)
Definition plain_doc : YamlDoc :=
  mkDoc (doc_meta sample_doc)
    (Some (mkTemplate "Hello, this is your stroke navigator calling." []))
    (doc_flow sample_doc) (Some (Some "Goodbye and take care."))
    (doc_emergency_disclaimer sample_doc) (doc_stroke_warning_signs sample_doc).

End Sample.

(** ** A caller driving the state machine directly

    Each turn answers the question bound to the current state (the
    [state_to_key] table) through [process_response]; in a state without a
    bound question (Greeting, Wrapup) the turn is a bare [_try_transition],
    as the orchestrator does for Greeting. *)

Module Driver.
Import StateMachine PromptGenerator.

Definition turn (sm : ConversationStateMachine) (message : string)
  : ConversationStateMachine :=
  match state_to_key (current_state sm) with
  | Some k => snd (process_response k message sm)
  | None => snd (try_transition sm)
  end.

Definition session (patient_name honorific organization site : string) (now : Z)
  (messages : list string) : ConversationStateMachine :=
  fold_left turn messages
    (StateMachine.start_conversation patient_name honorific organization site now
       (init now)).

End Driver.

(** ** Operation classes of the orchestrator *)

Definition clears_session (op : ConversationFlow.FlowOp) : bool :=
  match op with
  | ConversationFlow.Begin _ _ _ _ | ConversationFlow.Reset => true
  | _ => false
  end.

(** * Properties *)

Import StateMachine YamlParser PromptGenerator ConversationFlow Sample.

(** ** Transitions keep the context *)

Lemma try_transition_in_frame (ts : list StateTransition) (sm : ConversationStateMachine) :
  Forall (fun t => action t = None) ts ->
  context (snd (try_transition_in ts sm)) = context sm /\
  (fst (try_transition_in ts sm) = false -> snd (try_transition_in ts sm) = sm).
Proof.
  induction ts as [|t ts IH]; intros Hall; simpl.
  - split; reflexivity.
  - inversion Hall as [|? ? Ht Hrest]; subst.
    destruct (fires t sm).
    + rewrite Ht; simpl. split; [reflexivity | discriminate].
    + apply IH; exact Hrest.
Qed.

Lemma create_transitions_no_action :
  Forall (fun t => action t = None) create_transitions.
Proof. repeat constructor. Qed.

Lemma try_transition_context (sm : ConversationStateMachine) :
  context (snd (try_transition sm)) = context sm.
Proof. apply try_transition_in_frame, create_transitions_no_action. Qed.

Lemma try_transition_false (sm : ConversationStateMachine) :
  fst (try_transition sm) = false -> snd (try_transition sm) = sm.
Proof. apply try_transition_in_frame, create_transitions_no_action. Qed.

Lemma process_response_unfold (k r : string) (sm : ConversationStateMachine) :
  process_response k r sm =
  try_transition (mkSM (current_state sm) (recorded k r (context sm)) (state_history sm)).
Proof. reflexivity. Qed.

Lemma process_response_context (k r : string) (sm : ConversationStateMachine) :
  context (snd (process_response k r sm)) = recorded k r (context sm).
Proof. rewrite process_response_unfold, try_transition_context. reflexivity. Qed.

(** In Greeting and in KnowledgeCheck through Resources the unconditional
    rule of the state is declared before its emergency rule, so the
    emergency rule never fires. *)
Lemma normal_rule_precedes_emergency (sm : ConversationStateMachine) :
  In (current_state sm) [GREETING; KNOWLEDGE_CHECK; GENERAL_WELLBEING; MEDICATIONS;
                         FOLLOWUP_CARE; LIFESTYLE; DAILY_ACTIVITIES; RESOURCES] ->
  fst (try_transition sm) = true /\
  current_state (snd (try_transition sm)) <> EMERGENCY_EXIT.
Proof.
  destruct sm as [s c h]; simpl.
  intros Hin; repeat destruct Hin as [<- | Hin]; try contradiction;
    split; cbn; first [reflexivity | discriminate].
Qed.

(** ** C1 *)

(** Claim C1: in the spec's scenario, submitting "I have chest pain" in
    GeneralWellbeing should end in EmergencyExit with the emergency text.
    On the code the flag is set, but the unconditional rule
    GeneralWellbeing -> Medications wins over the emergency rule: the
    session moves to Medications, stays active, and the turn returns the
    Medications question, not the emergency text. *)
Theorem C1_chest_pain_moves_to_medications :
  current_state (state_machine (snd jane_begin)) = GREETING /\
  current_state (state_machine (snd jane_hello)) = CONSENT /\
  current_state (state_machine (snd jane_yes)) = KNOWLEDGE_CHECK /\
  current_state (state_machine (snd jane_know)) = GENERAL_WELLBEING /\
  emergency_detected (context (state_machine (snd jane_pain))) = true /\
  current_state (state_machine (snd jane_pain)) = MEDICATIONS /\
  is_conversation_active (state_machine (snd jane_pain)) = true /\
  fst jane_pain = "Did you pick up your medications?" /\
  fst jane_pain <> generate_emergency_prompt sample_doc.
Proof.
  repeat split; try (vm_compute; reflexivity).
  vm_compute; discriminate.
Qed.

(** ** C2 *)

(** Claim C2: an emergency keyword submitted in any non-terminal state but
    Idle should leave [emergency_detected] true. In Greeting the
    orchestrator routes the message to [_handle_special_state], which
    transitions without running the detector: after "I need help" in
    Greeting the flag is still false (and the state is Consent). *)
Theorem C2_greeting_skips_detector :
  detect_emergency "I need help" = true /\
  current_state (state_machine (snd jane_begin)) = GREETING /\
  emergency_detected (context (state_machine
    (snd (process_patient_response "I need help" 36001 (snd jane_begin))))) = false /\
  current_state (state_machine
    (snd (process_patient_response "I need help" 36001 (snd jane_begin)))) = CONSENT.
Proof. vm_compute. repeat split. Qed.

(** The same holds in every state without a bound question (Greeting,
    Wrapup, and a question state whose key the document lacks): the
    orchestrator's turn leaves the flag as it was. *)
Lemma special_state_keeps_flag (m : string) (now : Z) (f : Flow) :
  get_question_by_state (yaml_parser f) (current_state (state_machine f)) = None ->
  emergency_detected (context (state_machine (snd (process_patient_response m now f)))) =
  emergency_detected (context (state_machine f)).
Proof.
  intros Hq. unfold process_patient_response, log_conversation_event.
  cbn [yaml_parser state_machine]. unfold get_current_state. rewrite Hq.
  destruct (current_state (state_machine f)); try reflexivity.
  unfold handle_special_state, set_state_machine.
  cbn [yaml_parser state_machine].
  destruct (get_consent_question (yaml_parser f)); cbn [snd state_machine];
    apply (f_equal emergency_detected (try_transition_context _)).
Qed.

(** ** C3 *)

(** Claim C3: a consent answer equal to "no" ignoring case should move
    Consent to EmergencyExit. The guard compares with ['no'] exactly:
    "No" in Consent matches no rule, the state stays Consent and the turn
    asks the patient to repeat. *)
Theorem C3_capitalised_no_stays_in_consent :
  current_state (state_machine (snd jane_hello)) = CONSENT /\
  lower "No" = "no" /\
  current_state (state_machine
    (snd (process_patient_response "No" 36002 (snd jane_hello)))) = CONSENT /\
  fst (process_patient_response "No" 36002 (snd jane_hello)) = didnt_catch /\
  current_state (state_machine
    (snd (process_patient_response "no" 36002 (snd jane_hello)))) = EMERGENCY_EXIT.
Proof. vm_compute. repeat split. Qed.

(** ** C4 *)

Lemma submit_keeps_flag (m : string) (now : Z) (f : Flow) :
  emergency_detected (context (state_machine f)) = true ->
  emergency_detected (context (state_machine (snd (process_patient_response m now f)))) = true.
Proof.
  intros H.
  destruct (get_question_by_state (yaml_parser f) (current_state (state_machine f)))
    as [q|] eqn:Hq.
  - unfold process_patient_response, log_conversation_event.
    cbn [yaml_parser state_machine]. unfold get_current_state. rewrite Hq.
    destruct (process_response (key q) m (state_machine f)) as [b sm] eqn:Hp.
    assert (Hc : context sm = recorded (key q) m (context (state_machine f))).
    { rewrite <- process_response_context, Hp. reflexivity. }
    destruct b; cbn [negb fst snd set_state_machine state_machine]; rewrite Hc;
      unfold recorded; cbn [emergency_detected]; rewrite H;
      destruct (detect_emergency m); reflexivity.
  - rewrite special_state_keeps_flag by exact Hq. exact H.
Qed.

Lemma step_keeps_flag (op : FlowOp) (now : Z) (f : Flow) :
  clears_session op = false ->
  emergency_detected (context (state_machine f)) = true ->
  emergency_detected (context (state_machine (step op now f))) = true.
Proof.
  destruct op; cbn; intros Hop H; try discriminate; try exact H.
  apply submit_keeps_flag; exact H.
Qed.

(** Claim C4: once [emergency_detected] is true it stays true through any
    sequence of operations (submit, status, export) that contains no
    session start and no reset. *)
Theorem C4_emergency_flag_monotone (ops : list (FlowOp * Z)) (f : Flow) :
  forallb (fun p => negb (clears_session (fst p))) ops = true ->
  emergency_detected (context (state_machine f)) = true ->
  emergency_detected (context (state_machine (run ops f))) = true.
Proof.
  revert f; induction ops as [|[op now] ops IH]; intros f Hops H; cbn in *.
  - exact H.
  - apply andb_true_iff in Hops as [Hop Hops].
    apply IH; [exact Hops |].
    apply step_keeps_flag; [destruct (clears_session op); [discriminate | reflexivity] | exact H].
Qed.

Lemma C4_witness :
  forallb (fun p => negb (clears_session (fst p)))
    [(Submit "I feel fine", 36005); (GetStatus, 36006); (ExportSummary, 36007);
     (Submit "yes", 36008)] = true /\
  emergency_detected (context (state_machine (snd jane_pain))) = true /\
  emergency_detected (context (state_machine
    (run [(Submit "I feel fine", 36005); (GetStatus, 36006); (ExportSummary, 36007);
          (Submit "yes", 36008)] (snd jane_pain)))) = true.
Proof.
  split; [reflexivity |]. split; [vm_compute; reflexivity |].
  apply C4_emergency_flag_monotone; [reflexivity | vm_compute; reflexivity].
Defined.

(** ** C5 *)

(** Claim C5 says the only way out of a terminal state is Error -> Idle and
    that it is a full reset. A session whose greeting template fails starts
    in Error; [process_response] there applies the Error -> Idle rule and
    returns true, but the context keeps the patient's name and the new
    answer: it is not the context [reset] would give. *)
Lemma C5_error_to_idle_keeps_context :
  current_state (state_machine (snd jane_broken_begin)) = ERROR /\
  fst (process_response "consent" "yes" (state_machine (snd jane_broken_begin))) = true /\
  current_state (snd (process_response "consent" "yes"
                        (state_machine (snd jane_broken_begin)))) = IDLE /\
  patient_name (context (snd (process_response "consent" "yes"
                                (state_machine (snd jane_broken_begin))))) = "Jane" /\
  context (snd (process_response "consent" "yes" (state_machine (snd jane_broken_begin))))
    <> context (reset 36001 (state_machine (snd jane_broken_begin))).
Proof.
  repeat split; try (vm_compute; reflexivity).
  vm_compute. discriminate.
Qed.

(** Claim C5, as the code does it: the state machine's [process_response]
    on Completed or EmergencyExit records the answer and returns false with
    state and history unchanged; on Error it records the answer and returns
    true, moving to Idle and appending Idle to the history, with the
    context kept. The orchestrator's submit on any of the three terminal
    states only logs the message and returns the fixed "not sure" text. *)
Theorem C5_terminal_submit (k r : string) (c : ConversationContext)
  (h : list ConversationState) (d : YamlDoc) (cb : option LLMCallback)
  (log : list Event) (m : string) (now : Z) :
  process_response k r (mkSM COMPLETED c h) = (false, mkSM COMPLETED (recorded k r c) h) /\
  process_response k r (mkSM EMERGENCY_EXIT c h) =
    (false, mkSM EMERGENCY_EXIT (recorded k r c) h) /\
  process_response k r (mkSM ERROR c h) = (true, mkSM IDLE (recorded k r c) (h ++ [IDLE])) /\
  process_patient_response m now (mkFlow d (mkSM COMPLETED c h) cb log) =
    (not_sure, mkFlow d (mkSM COMPLETED c h) cb
       (log ++ [mkEvent now "patient_response" [("state", "completed"); ("response", m)]])) /\
  process_patient_response m now (mkFlow d (mkSM EMERGENCY_EXIT c h) cb log) =
    (not_sure, mkFlow d (mkSM EMERGENCY_EXIT c h) cb
       (log ++ [mkEvent now "patient_response" [("state", "emergency_exit"); ("response", m)]])) /\
  process_patient_response m now (mkFlow d (mkSM ERROR c h) cb log) =
    (not_sure, mkFlow d (mkSM ERROR c h) cb
       (log ++ [mkEvent now "patient_response" [("state", "error"); ("response", m)]])).
Proof. repeat split. Qed.

(** ** C6 *)

(** Claim C6: [is_conversation_active] is false exactly in Completed,
    EmergencyExit and Error, and true in every other state. *)
Theorem C6_is_active_iff_not_terminal (sm : ConversationStateMachine) :
  is_conversation_active sm = false <->
  current_state sm = COMPLETED \/ current_state sm = EMERGENCY_EXIT \/
  current_state sm = ERROR.
Proof.
  destruct sm as [s c h]; destruct s; cbn; split; intros H;
    first [ discriminate H
          | reflexivity
          | solve [auto]
          | destruct H as [H | [H | H]]; discriminate H ].
Qed.

(** ** C7 *)

(** The orchestrator never leaves Wrapup: Wrapup has no bound question and
    [_handle_special_state] only transitions from Greeting. A run to
    Completed therefore drives the state machine itself, as in C7. *)
Lemma orchestrator_stays_in_wrapup (m : string) (now : Z) (f : Flow) :
  current_state (state_machine f) = WRAPUP ->
  state_machine (snd (process_patient_response m now f)) = state_machine f.
Proof.
  intros H. unfold process_patient_response, log_conversation_event.
  cbn [yaml_parser state_machine]. unfold get_current_state. rewrite H.
  reflexivity.
Qed.

(** Claim C7: a session started and driven through the whole normal flow
    (consent "yes", one answer to each bound question, then the Wrapup step
    to Completed) exports exactly one answer per asked question, in answer
    order, and a state history from Greeting to Completed. The messages in
    Greeting and Wrapup answer no question and are not recorded. *)
Theorem C7_full_run_summary (name hon org site : string) (now later : Z)
  (hello a2 a3 a4 a5 a6 a7 a8 bye : string) :
  let sm := Driver.session name hon org site now
              [hello; "yes"; a2; a3; a4; a5; a6; a7; a8; bye] in
  let x := StateMachine.get_conversation_summary later sm in
  current_state sm = COMPLETED /\
  s_responses x = [("consent", "yes"); ("know_ischemic", a2); ("general_feeling", a3);
                   ("meds_pickup", a4); ("fup_scheduled", a5);
                   ("lifestyle_adherence", a6); ("adl_support", a7);
                   ("who_to_call", a8)] /\
  s_total_responses x = 8%nat /\
  s_state_history x = ["greeting"; "consent"; "knowledge_check"; "general_wellbeing";
                       "medications"; "followup_care"; "lifestyle"; "daily_activities";
                       "resources"; "wrapup"; "completed"] /\
  s_final_state x = "completed".
Proof. cbv zeta. repeat split; vm_compute; reflexivity. Qed.

(** ** C8 *)

(** Claim C8 says two status reads give identical results. Each read
    recomputes the elapsed duration from the clock: read one second apart
    the two results differ, and so do two exported summaries. *)
Lemma C8_snapshots_read_the_clock :
  get_conversation_status 36010 (snd jane_begin) <>
  get_conversation_status 36011 (snd jane_begin) /\
  ConversationFlow.get_conversation_summary 36010 (snd jane_begin) <>
  ConversationFlow.get_conversation_summary 36011 (snd jane_begin).
Proof. split; intros H; vm_compute in H; discriminate H. Qed.

(** Claim C8, as the code does it: status and export change nothing; two
    reads agree on every field but the duration, which is [now - start_time]
    at the time of each read. *)
Theorem C8_snapshots_differ_only_in_duration (now1 now2 : Z) (f : Flow) :
  step GetStatus now1 f = f /\ step ExportSummary now1 f = f /\
  get_conversation_status now2 f =
    (let s := get_conversation_status now1 f in
     mkStatus (st_current_state s) (st_is_active s) (st_is_emergency s)
       (st_is_completed s) (st_patient_name s) (st_responses_count s)
       (Some (now2 - start_time (context (state_machine f))))) /\
  ConversationFlow.get_conversation_summary now2 f =
    (let x := ConversationFlow.get_conversation_summary now1 f in
     let y := fs_summary x in
     mkFlowSummary
       (mkSummary (s_patient_name y) (s_start_time y)
          (Some (now2 - start_time (context (state_machine f))))
          (s_final_state y) (s_total_responses y) (s_emergency_detected y)
          (s_state_history y) (s_responses y))
       (fs_conversation_log x) (fs_validation_issues x)).
Proof. repeat split. Qed.

(** ** C9 *)

(** Claim C9: a new session's time of day is "morning" for hours in
    [5,12), "afternoon" in [12,17) and "evening" otherwise, the hour being
    that of the clock reading, in [0,24). *)
Theorem C9_time_of_day_buckets (n h o s : string) (now : Z) (sm : ConversationStateMachine) :
  let tod := time_of_day (context (StateMachine.start_conversation n h o s now sm)) in
  0 <= hour_of now < 24 /\
  (tod = "morning" <-> 5 <= hour_of now < 12) /\
  (tod = "afternoon" <-> 12 <= hour_of now < 17) /\
  (tod = "evening" <-> hour_of now < 5 \/ 17 <= hour_of now).
Proof.
  cbn [StateMachine.start_conversation context time_of_day].
  unfold get_time_of_day, time_of_day_of_hour.
  assert (Hr : 0 <= hour_of now < 24) by (apply Z.mod_pos_bound; lia).
  split; [exact Hr |].
  destruct (Z.leb_spec 5 (hour_of now)), (Z.ltb_spec (hour_of now) 12),
           (Z.leb_spec 12 (hour_of now)), (Z.ltb_spec (hour_of now) 17);
    cbn [andb]; repeat split; intros; try discriminate; try reflexivity; lia.
Qed.

(** ** C10 *)

Lemma dict_get_set (k v : string) (d : Dict) : dict_get k (dict_set k v d) = Some v.
Proof.
  induction d as [|[k' v'] d IH]; cbn.
  - rewrite String.eqb_refl. reflexivity.
  - destruct (String.eqb k k') eqn:E; cbn; rewrite E; [reflexivity | exact IH].
Qed.

(** Claim C10: [process_response] stores the answer and raises the flag
    before it attempts the transition; the resulting context differs from
    the old one only in the answers map and the flag, and a call that
    returns false leaves state and history as they were. *)
Theorem C10_process_response_frame (k r : string) (sm : ConversationStateMachine) :
  process_response k r sm =
    try_transition (mkSM (current_state sm) (recorded k r (context sm)) (state_history sm)) /\
  context (snd (process_response k r sm)) = recorded k r (context sm) /\
  dict_get k (responses (context (snd (process_response k r sm)))) = Some r /\
  (if fst (process_response k r sm) then True
   else snd (process_response k r sm) =
        mkSM (current_state sm) (recorded k r (context sm)) (state_history sm)).
Proof.
  split; [apply process_response_unfold |].
  split; [apply process_response_context |].
  split; [rewrite process_response_context; apply dict_get_set |].
  rewrite process_response_unfold.
  pose proof (try_transition_false
                (mkSM (current_state sm) (recorded k r (context sm)) (state_history sm))) as Hf.
  destruct (try_transition _) as [b sm'] eqn:E; destruct b; cbn in *; [exact I |].
  apply Hf; reflexivity.
Qed.

(** * Further properties of the engine *)

(** ** Strings *)

Lemma lower_app (a b : string) : lower (a ++ b) = lower a ++ lower b.
Proof. induction a as [|c a IH]; cbn; [reflexivity | rewrite IH; reflexivity]. Qed.

Lemma lower_ascii_idem (c : ascii) : lower_ascii (lower_ascii c) = lower_ascii c.
Proof.
  destruct c as [[] [] [] [] [] [] [] []]; vm_compute; reflexivity.
Qed.

Lemma lower_idem (s : string) : lower (lower s) = lower s.
Proof.
  induction s as [|c s IH]; cbn; [reflexivity | rewrite lower_ascii_idem, IH; reflexivity].
Qed.

Lemma prefix_empty (s : string) : prefix "" s = true.
Proof. destruct s; reflexivity. Qed.

Lemma contains_empty (s : string) : contains "" s = true.
Proof. destruct s; reflexivity. Qed.

Lemma prefix_app (k s t : string) : prefix k s = true -> prefix k (s ++ t) = true.
Proof.
  revert s; induction k as [|x k IH]; intros s H; [apply prefix_empty |].
  destruct s as [|y s]; cbn in *; [discriminate |].
  destruct (ascii_dec x y); [apply IH; exact H | discriminate].
Qed.

Lemma prefix_self (k t : string) : prefix k (k ++ t) = true.
Proof.
  induction k as [|x k IH]; [apply prefix_empty |].
  cbn. destruct (ascii_dec x x) as [_ | n]; [exact IH | contradiction].
Qed.

Lemma contains_prefix_app (k p s : string) : contains k s = true -> contains k (p ++ s) = true.
Proof.
  induction p as [|c p IH]; intros H; cbn; [exact H |].
  rewrite IH by exact H. apply orb_true_r.
Qed.

Lemma contains_app_suffix (k s t : string) : contains k s = true -> contains k (s ++ t) = true.
Proof.
  induction s as [|c s IH]; intros H.
  - destruct k; [apply contains_empty | cbn in H; discriminate].
  - cbn [contains append] in *. apply orb_true_iff in H as [H | H].
    + apply orb_true_iff; left. exact (prefix_app _ (String c s) t H).
    + rewrite IH by exact H. apply orb_true_r.
Qed.

Lemma contains_mid (k p s t : string) : contains k s = true -> contains k (p ++ s ++ t) = true.
Proof. intros H. apply contains_prefix_app, contains_app_suffix, H. Qed.

Lemma contains_self_app (k t : string) : contains k (k ++ t) = true.
Proof.
  destruct k as [|a k]; [apply contains_empty |].
  cbn [contains append]. apply orb_true_iff; left. exact (prefix_self (String a k) t).
Qed.

Lemma append_empty_r (s : string) : s ++ "" = s.
Proof. induction s as [|c s IH]; cbn; [reflexivity | rewrite IH; reflexivity]. Qed.

Lemma contains_join (sep x : string) (xs : list string) :
  In x xs -> contains x (join sep xs) = true.
Proof.
  induction xs as [|y [|z xs] IH]; intros Hin; [contradiction | |].
  - destruct Hin as [<- | []]. cbn [join].
    rewrite <- (append_empty_r y) at 2. apply contains_self_app.
  - destruct Hin as [<- | Hin].
    + apply contains_self_app.
    + change (join sep (y :: z :: xs)) with (y ++ sep ++ join sep (z :: xs)).
      apply contains_prefix_app, contains_prefix_app, IH, Hin.
Qed.

Lemma contains_false_cons (k : string) (c : ascii) (s : string) :
  contains k (String c s) = false -> prefix k (String c s) = false /\ contains k s = false.
Proof. cbn [contains]. intros H. apply orb_false_iff in H. exact H. Qed.

Lemma replace_go_absent (fuel : nat) (old new s : string) :
  contains old s = false -> replace_go fuel old new s = s.
Proof.
  revert s; induction fuel as [|fuel IH]; intros s H; [reflexivity |].
  destruct s as [|c s]; [reflexivity |].
  apply contains_false_cons in H as [Hp Hc].
  cbn [replace_go]. rewrite Hp, IH by exact Hc. reflexivity.
Qed.

Lemma format_go_plain (kw : string -> option string) (s : string) :
  contains "{" s = false -> contains "}" s = false -> format_go kw Lit s = Some s.
Proof.
  induction s as [|c s IH]; intros Ho Hc; [reflexivity |].
  apply contains_false_cons in Ho as [Ho1 Ho2].
  apply contains_false_cons in Hc as [Hc1 Hc2].
  cbn [format_go].
  destruct (Ascii.eqb c "{"%char) eqn:E1.
  { apply Ascii.eqb_eq in E1; subst c. cbn in Ho1. rewrite prefix_empty in Ho1. discriminate Ho1. }
  destruct (Ascii.eqb c "}"%char) eqn:E2.
  { apply Ascii.eqb_eq in E2; subst c. cbn in Hc1. rewrite prefix_empty in Hc1. discriminate Hc1. }
  rewrite IH by assumption. reflexivity.
Qed.

(** ** Emergency keyword detection *)

(** The prompt generator's keyword scan is the state machine's, and both
    ignore letter case. *)
Theorem detect_emergency_case_insensitive (r : string) :
  detect_emergency_keywords r = detect_emergency r /\
  detect_emergency (lower r) = detect_emergency r.
Proof.
  split; [reflexivity |].
  unfold detect_emergency. rewrite lower_idem. reflexivity.
Qed.

(** Surrounding text never hides a keyword: a message that triggers the
    detector still triggers it with any text before and after it. *)
Theorem detect_emergency_surrounded (p r t : string) :
  detect_emergency r = true -> detect_emergency (p ++ r ++ t) = true.
Proof.
  unfold detect_emergency. rewrite !lower_app. intros H.
  apply existsb_exists in H as [kw [Hin Hc]].
  apply existsb_exists. exists kw. split; [exact Hin | apply contains_mid, Hc].
Qed.

Lemma detect_emergency_surrounded_witness :
  detect_emergency "chest pain" = true /\
  detect_emergency ("Since this morning I have " ++ "chest pain" ++ " on the left") = true.
Proof.
  split; [vm_compute; reflexivity |].
  apply detect_emergency_surrounded. vm_compute. reflexivity.
Defined.

(** ** Follow-up replies *)

(** A keyword-free answer to a confirm question that contains "not sure" is
    thanked as consent: the substring test for "sure" accepts it. *)
Theorem followup_not_sure_is_consent (d : YamlDoc) (q : Question) (ctx : ConversationContext)
  (p t : string) :
  type q = "confirm" ->
  detect_emergency_keywords (p ++ "not sure" ++ t) = false ->
  generate_followup_prompt d q (p ++ "not sure" ++ t) ctx = consent_thanks.
Proof.
  intros Hty Hdet. unfold generate_followup_prompt.
  rewrite Hdet, Hty. cbn [String.eqb Ascii.eqb Bool.eqb].
  rewrite !lower_app.
  assert (Hs : contains "sure" (lower p ++ lower "not sure" ++ lower t) = true)
    by (apply contains_mid; vm_compute; reflexivity).
  rewrite Hs, orb_true_r. reflexivity.
Qed.

Lemma followup_not_sure_is_consent_witness :
  type (mkQuestion "consent" "confirm" "May we continue?" None None) = "confirm" /\
  detect_emergency_keywords ("I'm " ++ "not sure" ++ " about this") = false /\
  generate_followup_prompt sample_doc (mkQuestion "consent" "confirm" "May we continue?" None None)
    ("I'm " ++ "not sure" ++ " about this") (new_context 0) = consent_thanks.
Proof.
  split; [reflexivity |]. split; [vm_compute; reflexivity |].
  apply followup_not_sure_is_consent; [reflexivity | vm_compute; reflexivity].
Defined.

(** The positive bucket is tested first: any answer containing "good", for
    instance "not good, it is worse", gets the positive reply. *)
Theorem empathetic_good_wins (q : Question) (p t : string) :
  generate_empathetic_followup q (p ++ "good" ++ t) = positive_reply.
Proof.
  unfold generate_empathetic_followup. rewrite !lower_app.
  assert (Hg : contains "good" (lower p ++ lower "good" ++ lower t) = true)
    by (apply contains_mid; vm_compute; reflexivity).
  cbn [existsb]. rewrite Hg. reflexivity.
Qed.

(** ** Rendered texts *)

(** The emergency text starts with the disclaimer and lists every warning
    sign as a "- sign" item. *)
Theorem emergency_prompt_contents (d : YamlDoc) :
  prefix (get_emergency_disclaimer d) (generate_emergency_prompt d) = true /\
  Forall (fun sign => contains ("- " ++ sign) (generate_emergency_prompt d) = true)
    (get_stroke_warning_signs d).
Proof.
  split.
  - apply prefix_self.
  - apply Forall_forall. intros sign Hin. unfold generate_emergency_prompt.
    do 5 apply contains_prefix_app.
    apply contains_join, in_map, Hin.
Qed.

(** The wrap-up text is the document's message as is whenever the message
    has no "Thank you" to personalise, whatever the patient's name. *)
Theorem wrapup_without_thank_you (d : YamlDoc) (ctx : ConversationContext) :
  contains "Thank you" (get_wrapup_message d) = false ->
  generate_wrapup_prompt d ctx = get_wrapup_message d.
Proof.
  intros H. unfold generate_wrapup_prompt.
  destruct (String.eqb (patient_name ctx) ""); [reflexivity |].
  apply replace_go_absent, H.
Qed.

Lemma wrapup_without_thank_you_witness :
  contains "Thank you" (get_wrapup_message plain_doc) = false /\
  generate_wrapup_prompt plain_doc
    (context (StateMachine.start_conversation "Jane" "Ms." "Org" "Site" 0 (init 0))) =
  get_wrapup_message plain_doc.
Proof.
  split; [vm_compute; reflexivity |].
  apply wrapup_without_thank_you. vm_compute. reflexivity.
Defined.

(** A greeting template without braces is returned verbatim by [begin], and
    the session starts in Greeting with history [Greeting]. *)
Theorem begin_with_plain_template (n h o s : string) (now : Z) (f : Flow) :
  contains "{" (template (get_greeting_template (yaml_parser f))) = false ->
  contains "}" (template (get_greeting_template (yaml_parser f))) = false ->
  fst (ConversationFlow.start_conversation n h o s now f) =
    template (get_greeting_template (yaml_parser f)) /\
  current_state (state_machine (snd (ConversationFlow.start_conversation n h o s now f))) =
    GREETING /\
  state_history (state_machine (snd (ConversationFlow.start_conversation n h o s now f))) =
    [GREETING].
Proof.
  intros Ho Hc. unfold ConversationFlow.start_conversation, generate_greeting_prompt, format.
  rewrite format_go_plain by assumption.
  repeat split.
Qed.

Lemma begin_with_plain_template_witness :
  contains "{" (template (get_greeting_template (yaml_parser (new_flow plain_doc None 0)))) = false /\
  contains "}" (template (get_greeting_template (yaml_parser (new_flow plain_doc None 0)))) = false /\
  fst (ConversationFlow.start_conversation "Jane" "Ms." "" "" 0 (new_flow plain_doc None 0)) =
    template (get_greeting_template (yaml_parser (new_flow plain_doc None 0))) /\
  current_state (state_machine
    (snd (ConversationFlow.start_conversation "Jane" "Ms." "" "" 0 (new_flow plain_doc None 0)))) =
    GREETING /\
  state_history (state_machine
    (snd (ConversationFlow.start_conversation "Jane" "Ms." "" "" 0 (new_flow plain_doc None 0)))) =
    [GREETING].
Proof.
  split; [vm_compute; reflexivity |]. split; [vm_compute; reflexivity |].
  apply begin_with_plain_template; vm_compute; reflexivity.
Defined.

(** ** Transitions *)

Lemma try_transition_in_cases (ts : list StateTransition) (sm : ConversationStateMachine) :
  Forall (fun t => action t = None) ts ->
  try_transition_in ts sm = (false, sm) \/
  exists t, In t ts /\ from_state t = current_state sm /\
    try_transition_in ts sm =
      (true, mkSM (to_state t) (context sm) (state_history sm ++ [to_state t])).
Proof.
  induction ts as [|t ts IH]; intros Hall; cbn [try_transition_in]; [left; reflexivity |].
  inversion Hall as [|? ? Ht Hrest]; subst.
  destruct (fires t sm) eqn:Hf.
  - right. exists t. split; [left; reflexivity |]. split.
    + unfold fires, state_eqb in Hf.
      destruct (state_eq_dec (from_state t) (current_state sm)); [assumption | discriminate].
    + rewrite Ht. reflexivity.
  - destruct (IH Hrest) as [H | [t' [Hin [Hfrom H]]]]; [left; exact H |].
    right. exists t'. split; [right; exact Hin | split; assumption].
Qed.

Lemma try_transition_cases (sm : ConversationStateMachine) :
  try_transition sm = (false, sm) \/
  exists t, In t create_transitions /\ from_state t = current_state sm /\
    try_transition sm =
      (true, mkSM (to_state t) (context sm) (state_history sm ++ [to_state t])).
Proof. apply try_transition_in_cases, create_transitions_no_action. Qed.

Lemma rule_into_completed (t : StateTransition) :
  In t create_transitions -> to_state t = COMPLETED -> from_state t = WRAPUP.
Proof.
  intros Hin Hto. cbn in Hin.
  repeat (destruct Hin as [<- | Hin]; [cbn in *; first [reflexivity | discriminate] |]).
  contradiction.
Qed.

Definition history_tracks (sm : ConversationStateMachine) : Prop :=
  hd_error (state_history sm) = Some GREETING /\
  last (state_history sm) IDLE = current_state sm.

Lemma try_transition_tracks (sm : ConversationStateMachine) (c : ConversationContext) :
  history_tracks sm ->
  history_tracks (snd (try_transition (mkSM (current_state sm) c (state_history sm)))).
Proof.
  intros [Hhd Hlast].
  destruct (try_transition_cases (mkSM (current_state sm) c (state_history sm)))
    as [E | [t [_ [_ E]]]]; rewrite E; unfold history_tracks; cbn [snd state_history current_state].
  - split; assumption.
  - split; [| apply last_last].
    destruct (state_history sm); [discriminate | exact Hhd].
Qed.

Lemma turn_tracks (sm : ConversationStateMachine) (m : string) :
  history_tracks sm -> history_tracks (Driver.turn sm m).
Proof.
  intros H. unfold Driver.turn.
  destruct (PromptGenerator.state_to_key (current_state sm)).
  - unfold process_response. apply try_transition_tracks, H.
  - destruct sm as [s c h]. apply (try_transition_tracks (mkSM s c h) c), H.
Qed.

(** Along any session driven through the state machine, the history starts
    with Greeting and its last element is the current state. *)
Theorem driver_history_tracks_state (n h o s : string) (now : Z) (msgs : list string) :
  hd_error (state_history (Driver.session n h o s now msgs)) = Some GREETING /\
  last (state_history (Driver.session n h o s now msgs)) IDLE =
    current_state (Driver.session n h o s now msgs).
Proof.
  change (history_tracks (Driver.session n h o s now msgs)).
  unfold Driver.session.
  assert (H0 : history_tracks (StateMachine.start_conversation n h o s now (init now)))
    by (split; reflexivity).
  revert H0. generalize (StateMachine.start_conversation n h o s now (init now)).
  induction msgs as [|m msgs IH]; intros sm H0; [exact H0 |].
  cbn [fold_left]. apply IH, turn_tracks, H0.
Qed.

(** [process_response] appends exactly one state to the history when it
    reports success and none when it reports failure. *)
Theorem process_response_history_length (k r : string) (sm : ConversationStateMachine) :
  length (state_history (snd (process_response k r sm))) =
  (length (state_history sm) + if fst (process_response k r sm) then 1 else 0)%nat.
Proof.
  unfold process_response.
  destruct (try_transition_cases (mkSM (current_state sm)
     (set_emergency_detected
        (if detect_emergency r then true
         else emergency_detected (set_responses (dict_set k r (responses (context sm))) (context sm)))
        (set_responses (dict_set k r (responses (context sm))) (context sm)))
     (state_history sm))) as [E | [t [_ [_ E]]]]; rewrite E; cbn [fst snd state_history].
  - lia.
  - rewrite length_app. cbn. lia.
Qed.
Theorem consent_gate (k r : string) (c : ConversationContext) (h : list ConversationState) :
  let s' := current_state (snd (process_response k r (mkSM CONSENT c h))) in
  let a := dict_get "consent" (dict_set k r (responses c)) in
  In s' [CONSENT; KNOWLEDGE_CHECK; EMERGENCY_EXIT] /\
  (s' = KNOWLEDGE_CHECK <-> a = Some "yes") /\
  (s' = CONSENT <-> a <> Some "yes" /\ a <> Some "no" /\
                    detect_emergency r = false /\ emergency_detected c = false).
Proof.
  cbv zeta. rewrite process_response_unfold. cbn [current_state context state_history].
  assert (Hr : responses (recorded k r c) = dict_set k r (responses c)) by reflexivity.
  assert (He : emergency_detected (recorded k r c) =
               if detect_emergency r then true else emergency_detected c) by reflexivity.
  rewrite <- Hr.
  assert (Hd : detect_emergency r = false /\ emergency_detected c = false <->
               emergency_detected (recorded k r c) = false)
    by (rewrite He; destruct (detect_emergency r); intuition discriminate).
  rewrite Hd. clear Hr He Hd.
  generalize (recorded k r c) as c'. intros [pn ho td og st stt cqi resp em].
  cbn [responses emergency_detected].
  unfold try_transition. cbn. unfold consent_is. cbn [responses emergency_detected].
  destruct (dict_get "consent" resp) as [a|] eqn:Ea; cbn.
  - destruct (String.eqb_spec a "yes") as [->|Ny]; cbn.
    + intuition (try discriminate; try congruence).
    + destruct (String.eqb_spec a "no") as [->|Nn]; cbn.
      * intuition (try discriminate; try congruence).
      * destruct em; cbn; intuition (try discriminate; try congruence).
  - destruct em; cbn; intuition (try discriminate; try congruence).
Qed.

(** ** Orchestrator turns *)

Section FlowTurns.
Import ConversationFlow YamlParser PromptGenerator.

(** Every call of [process_patient_response] appends exactly one event to
    the conversation log, a [patient_response] event holding the state the
    call started in and the raw message, and changes nothing else in the log. *)
Theorem submit_logs_one_event (m : string) (now : Z) (f : Flow) :
  conversation_log (snd (process_patient_response m now f)) =
  app (conversation_log f)
    [mkEvent now "patient_response"
       [("state", value (current_state (state_machine f))); ("response", m)]].
Proof.
  destruct f as [d [s c h] cb log].
  unfold process_patient_response, log_conversation_event, get_current_state.
  cbn [yaml_parser state_machine conversation_log current_state].
  destruct (get_question_by_state d s) as [q|].
  - destruct (process_response (key q) m (mkSM s c h)) as [[|] sm]; reflexivity.
  - unfold handle_special_state. destruct s; try reflexivity.
    unfold set_state_machine. cbn [yaml_parser].
    destruct (get_consent_question d); reflexivity.
Qed.

(** A message in Greeting, whatever it says, moves the orchestrator to
    Consent, keeps the context, appends Consent to the history, and answers
    with the consent question's prompt. *)
Theorem greeting_turn (m : string) (now : Z) (f : Flow) :
  current_state (state_machine f) = GREETING ->
  state_machine (snd (process_patient_response m now f)) =
    mkSM CONSENT (context (state_machine f)) (app (state_history (state_machine f)) [CONSENT]) /\
  fst (process_patient_response m now f) =
    match get_consent_question (yaml_parser f) with
    | Some q => prompt q
    | None => not_sure
    end.
Proof.
  destruct f as [d [s c h] cb log]. cbn [state_machine current_state]. intros ->.
  unfold process_patient_response. cbn.
  destruct (get_consent_question d); split; reflexivity.
Qed.

Lemma greeting_turn_witness :
  current_state (state_machine (snd Sample.jane_begin)) = GREETING /\
  state_machine (snd (process_patient_response "Hello" 36001 (snd Sample.jane_begin))) =
    mkSM CONSENT (context (state_machine (snd Sample.jane_begin)))
      (app (state_history (state_machine (snd Sample.jane_begin))) [CONSENT]).
Proof.
  split; [vm_compute; reflexivity |].
  apply (greeting_turn "Hello" 36001 (snd Sample.jane_begin)). vm_compute. reflexivity.
Defined.

(** The orchestrator never enters Completed: a state after a message is
    Completed only if it was Completed before. Wrapup, the only state with a
    rule into Completed, has no question, and its special-state handler does
    not call the transition rules. *)
Theorem orchestrator_never_completes (m : string) (now : Z) (f : Flow) :
  current_state (state_machine (snd (process_patient_response m now f))) = COMPLETED ->
  current_state (state_machine f) = COMPLETED.
Proof.
  destruct f as [d [s c h] cb log]. cbn [state_machine current_state].
  unfold process_patient_response, log_conversation_event, get_current_state.
  cbn [yaml_parser state_machine current_state context state_history].
  destruct (get_question_by_state d s) as [q|] eqn:Hq.
  - rewrite process_response_unfold. cbn [current_state context state_history].
    destruct (try_transition_cases (mkSM s (recorded (key q) m c) h))
      as [E | [t [Hin [Hfrom E]]]]; rewrite E; cbn; [intros H; exact H |].
    intros Hto. cbn in Hfrom.
    rewrite (rule_into_completed t Hin Hto) in Hfrom. subst s.
    discriminate Hq.
  - unfold handle_special_state.
    destruct s; try (intros H; exact H).
    unfold set_state_machine. cbn [state_machine].
    destruct (try_transition_cases (mkSM GREETING c h)) as [E | [t [Hin [Hfrom E]]]];
      rewrite E; cbn [snd].
    + destruct (get_consent_question _); cbn; discriminate.
    + intros Hto.
      assert (Hto' : to_state t = COMPLETED)
        by (destruct (get_consent_question _); exact Hto).
      rewrite (rule_into_completed t Hin Hto') in Hfrom. discriminate Hfrom.
Qed.

Lemma orchestrator_never_completes_witness :
  current_state (state_machine (snd (process_patient_response "Bye" 50
     (mkFlow Sample.sample_doc (mkSM COMPLETED (new_context 0) [COMPLETED]) None [])))) =
    COMPLETED /\
  current_state (state_machine
     (mkFlow Sample.sample_doc (mkSM COMPLETED (new_context 0) [COMPLETED]) None [])) =
    COMPLETED.
Proof.
  split; [vm_compute; reflexivity |].
  apply (orchestrator_never_completes "Bye" 50). vm_compute. reflexivity.
Defined.

(** Once the orchestrator is in Completed, EmergencyExit or Error, message
    submissions and read-only calls leave its state machine untouched: only
    [start_conversation] or [reset_conversation] leave those states. *)
Theorem terminal_session_frozen (ops : list (FlowOp * Z)) (f : Flow) :
  forallb (fun p => negb (clears_session (fst p))) ops = true ->
  In (current_state (state_machine f)) [COMPLETED; EMERGENCY_EXIT; ERROR] ->
  state_machine (run ops f) = state_machine f.
Proof.
  revert f. induction ops as [|[op now] ops IH]; intros f Hops Hin; [reflexivity |].
  cbn [forallb fst] in Hops. apply andb_prop in Hops as [Hop Hops].
  assert (Hstep : state_machine (step op now f) = state_machine f).
  { destruct op; try discriminate Hop; try reflexivity.
    destruct f as [d [s c h] cb log]. cbn in Hin.
    destruct Hin as [<- | [<- | [<- | []]]]; reflexivity. }
  cbn [run]. rewrite IH; [exact Hstep | exact Hops | rewrite Hstep; exact Hin].
Qed.

Lemma terminal_session_frozen_witness :
  let f := mkFlow Sample.sample_doc (mkSM EMERGENCY_EXIT (new_context 0)
             [GREETING; CONSENT; EMERGENCY_EXIT]) None [] in
  let ops := [(Submit "yes", 10); (GetStatus, 11); (Submit "I feel fine", 12);
              (ExportSummary, 13)] in
  forallb (fun p => negb (clears_session (fst p))) ops = true /\
  In (current_state (state_machine f)) [COMPLETED; EMERGENCY_EXIT; ERROR] /\
  state_machine (run ops f) = state_machine f.
Proof.
  cbv zeta. split; [reflexivity | split; [cbn; tauto |]].
  apply terminal_session_frozen; [reflexivity | cbn; tauto].
Defined.

End FlowTurns.

(** ** The dialogue document *)

Section Parser.
Import YamlParser.

Lemma questions_from_keys (cur : option string) (items : list FlowItem) :
  map key (questions_from cur items) =
  flat_map (fun it => match it with QuestionItem k _ _ _ => [k] | _ => [] end) items.
Proof.
  revert cur. induction items as [|[s | k ty pr deny |] items IH]; intros cur;
    cbn [questions_from flat_map map key app]; try rewrite IH; reflexivity.
Qed.

(** [get_questions] keeps every keyed item of the flow, in flow order, with
    its key: section headers and other items add nothing, and duplicates are
    kept. *)
Theorem get_questions_keys (d : YamlDoc) :
  map key (get_questions d) =
  flat_map (fun it => match it with QuestionItem k _ _ _ => [k] | _ => [] end)
    (flow_data d).
Proof. apply questions_from_keys. Qed.

Lemma find_first {A : Type} (p : A -> bool) (l : list A) (x : A) :
  find p l = Some x ->
  p x = true /\ exists pre post, l = app pre (x :: post) /\ Forall (fun y => p y = false) pre.
Proof.
  induction l as [|y l IH]; cbn [find]; [discriminate |].
  destruct (p y) eqn:Hy.
  - intros [= <-]. split; [exact Hy |]. exists [], l. split; [reflexivity | constructor].
  - intros H. destruct (IH H) as [Hx [pre [post [-> Hpre]]]].
    split; [exact Hx |]. exists (y :: pre), post. split; [reflexivity | constructor; assumption].
Qed.

(** [get_question_by_key] returns the first question of the flow with that
    key: the result has the key asked for, and no question before it in
    [get_questions] has that key. *)
Theorem get_question_by_key_first (d : YamlDoc) (k : string) (q : Question) :
  get_question_by_key d k = Some q ->
  key q = k /\
  exists pre post, get_questions d = app pre (q :: post) /\
                   Forall (fun q' => key q' <> k) pre.
Proof.
  unfold get_question_by_key. intros H.
  destruct (find_first _ _ _ H) as [Hq [pre [post [Hl Hpre]]]].
  split; [apply String.eqb_eq, Hq |].
  exists pre, post. split; [exact Hl |].
  eapply Forall_impl; [| exact Hpre]. cbv beta. intros q' Hq' E.
  apply String.eqb_eq in E. congruence.
Qed.

Lemma get_question_by_key_first_witness :
  get_question_by_key
    (mkDoc None None
       (Some [SectionItem "a"; QuestionItem "x" None (Some "first") None;
              SectionItem "b"; QuestionItem "x" (Some "confirm") (Some "second") None])
       None None None) "x" =
    Some (mkQuestion "x" "free" "first" None (Some "a")) /\
  key (mkQuestion "x" "free" "first" None (Some "a")) = "x".
Proof.
  split; [reflexivity |].
  apply (get_question_by_key_first
    (mkDoc None None
       (Some [SectionItem "a"; QuestionItem "x" None (Some "first") None;
              SectionItem "b"; QuestionItem "x" (Some "confirm") (Some "second") None])
       None None None) "x"); reflexivity.
Defined.

(** [get_question_by_key] finds nothing exactly when no keyed item of the
    flow carries that key. *)
Theorem get_question_by_key_none (d : YamlDoc) (k : string) :
  get_question_by_key d k = None <->
  ~ In k (flat_map (fun it => match it with QuestionItem k' _ _ _ => [k'] | _ => [] end)
            (flow_data d)).
Proof.
  rewrite <- get_questions_keys. unfold get_question_by_key.
  induction (get_questions d) as [|q qs IH]; cbn [find map In]; [tauto |].
  destruct (String.eqb_spec (key q) k) as [E | N].
  - split; [discriminate | intros H; exfalso; apply H; left; exact E].
  - rewrite IH. intuition.
Qed.

Lemma flat_map_nil_forall {A B : Type} (g : A -> list B) (l : list A) :
  flat_map g l = [] -> Forall (fun x => g x = []) l.
Proof.
  induction l as [|x l IH]; cbn [flat_map]; intros H; [constructor |].
  apply app_eq_nil in H as [H1 H2]. constructor; [exact H1 | apply IH, H2].
Qed.

(** A document that passes [validate_conversation_structure] has its four
    top-level sections, a consent question, and at least one question in
    every section its flow names. *)
Theorem clean_validation (d : YamlDoc) :
  validate_conversation_structure d = [] ->
  doc_meta d <> None /\ doc_greeting d <> None /\ doc_flow d <> None /\
  doc_wrapup d <> None /\ get_consent_question d <> None /\
  Forall (fun s => get_questions_by_section d s <> []) (get_sections d).
Proof.
  unfold validate_conversation_structure. intros H.
  apply app_eq_nil in H as [H1 H]. apply app_eq_nil in H as [H2 H3].
  cbn [flat_map app] in H1.
  destruct (doc_meta d); [| discriminate H1].
  destruct (doc_greeting d); [| discriminate H1].
  destruct (doc_flow d); [| discriminate H1].
  destruct (doc_wrapup d); [| discriminate H1].
  destruct (get_consent_question d); [| discriminate H2].
  repeat split; try discriminate.
  apply flat_map_nil_forall in H3.
  eapply Forall_impl; [| exact H3]. cbv beta. intros s Hs E.
  rewrite E in Hs. discriminate Hs.
Qed.

Lemma clean_validation_witness :
  validate_conversation_structure Sample.sample_doc = [] /\
  get_consent_question Sample.sample_doc <> None.
Proof.
  split; [vm_compute; reflexivity |].
  apply (clean_validation Sample.sample_doc). vm_compute. reflexivity.
Defined.

End Parser.

(** ** Answer keys under the orchestrator *)

Lemma dict_set_keys (k v : string) (d : Dict) (x : string) :
  In x (map fst (dict_set k v d)) -> x = k \/ In x (map fst d).
Proof.
  induction d as [|[k' v'] d IH]; cbn [dict_set map fst In].
  - intros [<- | []]. left. reflexivity.
  - destruct (String.eqb k k'); cbn [map fst In].
    + intros [<- | H]; right; [left; reflexivity | right; exact H].
    + intros [<- | H]; [right; left; reflexivity |].
      destruct (IH H) as [E | E]; [left; exact E | right; right; exact E].
Qed.

Lemma dict_set_nodup (k v : string) (d : Dict) :
  NoDup (map fst d) -> NoDup (map fst (dict_set k v d)).
Proof.
  induction d as [|[k' v'] d IH]; cbn [dict_set map fst]; intros H.
  - constructor; [intros [] | constructor].
  - inversion H as [|? ? Hnot Hnd]; subst.
    destruct (String.eqb_spec k k') as [<- | N]; cbn [map fst].
    + constructor; assumption.
    + constructor; [| apply IH, Hnd].
      intros Hin. destruct (dict_set_keys _ _ _ _ Hin) as [E | E]; [congruence | contradiction].
Qed.

Lemma dict_set_forall_keys (Q : string -> Prop) (k v : string) (d : Dict) :
  Forall (fun kv => Q (fst kv)) d -> Q k -> Forall (fun kv => Q (fst kv)) (dict_set k v d).
Proof.
  rewrite !Forall_forall. intros Hd Hk x Hx.
  destruct (dict_set_keys k v d (fst x) (in_map fst _ _ Hx)) as [E | E].
  - rewrite E. exact Hk.
  - apply in_map_iff in E as [y [Ey Hy]]. rewrite <- Ey. apply Hd, Hy.
Qed.

Lemma dict_mem_absent (k : string) (d : Dict) :
  Forall (fun kv => fst kv <> k) d -> dict_mem k d = false.
Proof.
  unfold dict_mem. induction d as [|[k' v'] d IH]; intros H; [reflexivity |].
  inversion H as [|? ? Hk Hd]; subst. cbn [dict_get].
  destruct (String.eqb_spec k k') as [E | N]; [cbn in Hk; congruence | apply IH, Hd].
Qed.

Lemma get_question_by_state_key (d : YamlDoc) (s : ConversationState) (q : Question) :
  get_question_by_state d s = Some q -> state_to_key s = Some (key q).
Proof.
  unfold get_question_by_state, get_question_by_key.
  destruct (state_to_key s) as [k|]; [| discriminate].
  intros H. apply find_some in H as [_ H]. apply String.eqb_eq in H. rewrite H. reflexivity.
Qed.

(** The answer keys the engine can store: those bound to a state. *)
Definition answer_keys_ok (r : Dict) : Prop :=
  Forall (fun kv => exists s, state_to_key s = Some (fst kv)) r /\ NoDup (map fst r).

Lemma step_answer_keys (op : FlowOp) (now : Z) (f : Flow) :
  answer_keys_ok (responses (context (state_machine f))) ->
  answer_keys_ok (responses (context (state_machine (step op now f)))).
Proof.
  intros Hok. destruct op as [n h o s | m | | |]; cbn [step]; try exact Hok.
  - unfold ConversationFlow.start_conversation.
    destruct (generate_greeting_prompt _ _); split; constructor.
  - destruct f as [d sm cb log].
    unfold process_patient_response, log_conversation_event, get_current_state.
    cbn [yaml_parser state_machine].
    destruct (get_question_by_state d (current_state sm)) as [q|] eqn:Hq.
    + assert (Hc := process_response_context (key q) m sm).
      destruct (process_response (key q) m sm) as [b sm'].
      assert (Hk : answer_keys_ok (responses (context sm'))).
      { cbn [state_machine] in Hok. cbn [snd] in Hc. rewrite Hc.
        cbn [recorded responses]. destruct Hok as [Hf Hn]. split.
        - apply (dict_set_forall_keys (fun k => exists s, state_to_key s = Some k)); [exact Hf |].
          exists (current_state sm). apply (get_question_by_state_key d), Hq.
        - apply dict_set_nodup, Hn. }
      destruct b; exact Hk.
    + unfold handle_special_state. cbn [state_machine] in Hok.
      destruct (current_state sm); try exact Hok.
      unfold set_state_machine. cbn [yaml_parser].
      destruct (get_consent_question d); cbn [snd state_machine];
        rewrite try_transition_context; exact Hok.
  - split; constructor.
Qed.

Lemma run_answer_keys (ops : list (FlowOp * Z)) (d : YamlDoc) (cb : option LLMCallback) (now0 : Z) :
  answer_keys_ok (responses (context (state_machine (run ops (new_flow d cb now0))))).
Proof.
  assert (H0 : answer_keys_ok (responses (context (state_machine (new_flow d cb now0)))))
    by (split; constructor).
  revert H0. generalize (new_flow d cb now0).
  induction ops as [|[op now] ops IH]; intros f H0; [exact H0 |].
  cbn [run]. apply IH, step_answer_keys, H0.
Qed.

(** Under the orchestrator, from a fresh flow and after any sequence of
    calls, a question prompt never gets the medications or follow-up context
    note: responses are stored under the eight state-bound question keys,
    never under [meds] or [fup], which the note looks up. *)
Theorem orchestrator_no_context_note (ops : list (FlowOp * Z)) (d : YamlDoc)
  (cb : option LLMCallback) (now0 : Z) (q : Question) :
  generate_question_prompt q (context (state_machine (run ops (new_flow d cb now0)))) =
  prompt q.
Proof.
  destruct (run_answer_keys ops d cb now0) as [Hf _].
  assert (Habs : forall k, (forall s, state_to_key s <> Some k) ->
                 dict_mem k (responses (context (state_machine (run ops (new_flow d cb now0))))) = false).
  { intros k Hk. apply dict_mem_absent.
    eapply Forall_impl; [| exact Hf]. cbv beta. intros kv [s Hs] E.
    apply (Hk s). rewrite Hs, E. reflexivity. }
  unfold generate_question_prompt, get_relevant_context.
  rewrite !Habs by (intros s; destruct s; discriminate).
  rewrite !andb_false_r. reflexivity.
Qed.

(** Under the orchestrator, from a fresh flow and after any sequence of
    calls, the stored answers have pairwise distinct keys, each bound to a
    state, so the status never counts more than eight responses. *)
Theorem orchestrator_answer_count (ops : list (FlowOp * Z)) (d : YamlDoc)
  (cb : option LLMCallback) (now0 later : Z) :
  Forall (fun kv => In (fst kv)
            ["consent"; "know_ischemic"; "general_feeling"; "meds_pickup";
             "fup_scheduled"; "lifestyle_adherence"; "adl_support"; "who_to_call"])
    (responses (context (state_machine (run ops (new_flow d cb now0))))) /\
  NoDup (map fst (responses (context (state_machine (run ops (new_flow d cb now0)))))) /\
  (st_responses_count (get_conversation_status later (run ops (new_flow d cb now0))) <= 8)%nat.
Proof.
  destruct (run_answer_keys ops d cb now0) as [Hf Hn].
  assert (Hin : Forall (fun kv => In (fst kv)
            ["consent"; "know_ischemic"; "general_feeling"; "meds_pickup";
             "fup_scheduled"; "lifestyle_adherence"; "adl_support"; "who_to_call"])
            (responses (context (state_machine (run ops (new_flow d cb now0)))))).
  { eapply Forall_impl; [| exact Hf]. cbv beta. intros kv [s Hs].
    destruct s; cbn in Hs; try discriminate; injection Hs as <-; cbn; tauto. }
  split; [exact Hin | split; [exact Hn |]].
  unfold get_conversation_status, get_context. cbn [st_responses_count].
  rewrite <- (length_map fst).
  apply (NoDup_incl_length Hn (l' := ["consent"; "know_ischemic"; "general_feeling";
    "meds_pickup"; "fup_scheduled"; "lifestyle_adherence"; "adl_support"; "who_to_call"])).
  intros x Hx. apply in_map_iff in Hx as [kv [<- Hkv]].
  rewrite Forall_forall in Hin. apply Hin, Hkv.
Qed.

(** ** The answers map *)

Lemma dict_get_set_other (k k' v : string) (d : Dict) :
  k' <> k -> dict_get k' (dict_set k v d) = dict_get k' d.
Proof.
  intros N. induction d as [|[k0 v0] d IH]; cbn [dict_set dict_get].
  - destruct (String.eqb_spec k' k); [congruence | reflexivity].
  - destruct (String.eqb_spec k k0) as [<- | N0]; cbn [dict_get].
    + destruct (String.eqb_spec k' k); [congruence | reflexivity].
    + rewrite IH. reflexivity.
Qed.

Lemma dict_set_fst (k v : string) (d : Dict) :
  map fst (dict_set k v d) = if dict_mem k d then map fst d else app (map fst d) [k].
Proof.
  unfold dict_mem. induction d as [|[k' v'] d IH]; [reflexivity |].
  cbn [dict_set dict_get map fst].
  destruct (String.eqb_spec k k') as [<- | N]; cbn [map fst]; [reflexivity |].
  rewrite IH. destruct (dict_get k d); reflexivity.
Qed.

(** [process_response] leaves the answers to every other key as they were;
    it keeps the key order of the answers map when the key was already
    answered, and otherwise appends the key last, so the map lists keys in
    the order of their first answer. *)
Theorem process_response_answers (k r : string) (sm : ConversationStateMachine) :
  (forall k', k' <> k ->
     dict_get k' (responses (context (snd (process_response k r sm)))) =
     dict_get k' (responses (context sm))) /\
  map fst (responses (context (snd (process_response k r sm)))) =
    if dict_mem k (responses (context sm)) then map fst (responses (context sm))
    else app (map fst (responses (context sm))) [k].
Proof.
  rewrite process_response_context. cbn [recorded responses]. split.
  - intros k' N. apply dict_get_set_other, N.
  - apply dict_set_fst.
Qed.

(** ** Reset *)

(** [reset_conversation] keeps the document and the text generator, empties
    the log, and leaves a flow that validates as not started with no consent
    answer, and whose status is an active, idle conversation with no name,
    no answers and no emergency, timed from the reset. *)
Theorem reset_conversation_fresh (now later : Z) (f : Flow) :
  yaml_parser (reset_conversation now f) = yaml_parser f /\
  llm_callback (reset_conversation now f) = llm_callback f /\
  conversation_log (reset_conversation now f) = [] /\
  validate_conversation_data (reset_conversation now f) =
    ["Conversation has not been started"; "Missing required response: consent"] /\
  get_conversation_status later (reset_conversation now f) =
    mkStatus "idle" true false false "" 0 (Some (later - now)).
Proof. repeat split. Qed.
